(** * useFetchData: the paginated fetch hook of pro-table

    A shallow embedding of [src/useFetchData.tsx].  One call of the hook
    (one render) is modelled by the values its closures capture, the
    [Env]; every function the hook defines is a function of that [Env].
    State setters, callback invocations and calls of the data source are
    recorded, in program order, as a log of [Cmd]s; exceptions are a
    completion next to the log.  The part of an [async] function before
    its [await] and the part after it are two functions.

    Numbers are integers (page indices, sizes and counts; no NaN),
    values have the types the source declares, and the two callbacks
    [onLoad] and [onRequestError] return normally. *)

From Stdlib Require Import ZArith List Bool Lia.
Import ListNotations.
Local Open Scope Z_scope.

Set Implicit Arguments.

(** ** JavaScript values *)

(** [boolean | undefined] in a condition: [if (loading)]. *)
Definition truthy_bool (b : option bool) : bool :=
  match b with Some true => true | _ => false end.

(** [number | undefined] in a condition: [!prePage] holds for [undefined]
    and for [0]. *)
Definition truthy_num (n : option Z) : bool :=
  match n with Some z => negb (z =? 0) | None => false end.

(** [a || d] on numbers. *)
Definition or_num (a d : Z) : Z := if a =? 0 then d else a.

(** [prev === cur] where [prev] may be [undefined]. *)
Definition strict_eq_num (prev : option Z) (cur : Z) : bool :=
  match prev with Some p => p =? cur | None => false end.

(** A destructuring default, [{ x = d }]. *)
Definition with_default {A : Type} (o : option A) (d : A) : A :=
  match o with Some a => a | None => d end.

(** ** Data model *)

(** [interface PageInfo]. *)
Record PageInfo : Type := mkPageInfo {
  hasMore : bool;
  page : Z;
  pageSize : Z;
  total : Z
}.

(** [Partial<PageInfo>]: [None] is an omitted field. *)
Record PartialPageInfo : Type := mkPartial {
  part_hasMore : option bool;
  part_page : option Z;
  part_pageSize : option Z;
  part_total : option Z
}.

(** The third argument of the hook, without the two callbacks (they are
    observers and appear in the log when called).  [None] is an omitted
    field. *)
Record Options (Dep : Type) : Type := mkOptions {
  defaultCurrent : option Z;
  defaultPageSize : option Z;
  effects : option (list Dep)
}.

(** The argument of [getData]. *)
Record Params : Type := mkParams {
  param_current : Z;
  param_pageSize : Z
}.

Section Hook.

Context {T E Dep : Type}.

(** [interface RequestData<T>]. *)
Record RequestData : Type := mkRequestData {
  data : list T;
  success : option bool;
  rd_total : option Z
}.

(** What the [await] of [getData] gives: a value ([None] is a falsy one,
    which the source replaces by [{}]) or a rejection. *)
Inductive Outcome : Type :=
| Resolved (v : option RequestData)
| Rejected (e : E).

(** The exceptions the hook can see: the rejection reason of the data
    source, or the TypeError of the language (spreading or reading a
    property of [undefined]). *)
Inductive JsError : Type :=
| Reason (e : E)
| TypeError.

(** The values one render binds and its closures capture. *)
Record Env : Type := mkEnv {
  env_options : option (Options Dep);
  env_list : option (list T);
  env_loading : option bool;
  env_pageInfo : PageInfo;
  env_prePage : option Z;
  env_prePageSize : option Z
}.

(** A call of [getData] that has not settled: the closure that awaits it. *)
Record Request : Type := mkRequest {
  req_params : Params;
  req_env : Env;
  req_isAppend : bool
}.

Inductive Cmd : Type :=
| SetList (l : option (list T))
| SetLoading (b : bool)
| SetPageInfo (p : PageInfo)
| OnLoad (d : option (list T))
| OnRequestError (e : JsError)
| GetData (r : Request).

(** ** Effects: a log and a completion *)

Inductive Completion (A : Type) : Type :=
| Normal (a : A)
| Throw (e : JsError).
Arguments Throw {A} e.

Definition Eff (A : Type) : Type := (list Cmd * Completion A)%type.

Definition ret {A} (a : A) : Eff A := ([], Normal a).

Definition bind {A B} (m : Eff A) (f : A -> Eff B) : Eff B :=
  match m with
  | (l, Normal a) => let (l', c) := f a in (l ++ l', c)
  | (l, Throw e) => (l, Throw e)
  end.

Definition emit (c : Cmd) : Eff unit := ([c], Normal tt).

Definition throw {A} (e : JsError) : Eff A := ([], Throw e).

(** [try { m } catch (e) { h e }]. *)
Definition try_catch {A} (m : Eff A) (h : JsError -> Eff A) : Eff A :=
  match m with
  | (l, Normal a) => (l, Normal a)
  | (l, Throw e) => let (l', c) := h e in (l ++ l', c)
  end.

(** [try { m } finally { f }]: [f] always runs; the completion is [m]'s
    unless [f] throws. *)
Definition try_finally {A} (m : Eff A) (f : Eff unit) : Eff A :=
  match m, f with
  | (l, c), (l', Normal _) => (l ++ l', c)
  | (l, _), (l', Throw e) => (l ++ l', Throw e)
  end.

Notation "x <- m ;; k" := (bind m (fun x => k))
  (at level 61, m at next level, right associativity).
Notation "m ;; k" := (bind m (fun _ => k))
  (at level 61, right associativity).

Definition log {A} (m : Eff A) : list Cmd := fst m.
Definition completion {A} (m : Eff A) : Completion A := snd m.

(** ** The hook body *)

(** [const { defaultPageSize = 20, defaultCurrent = 1 } = options || {}]. *)
Definition opt_defaultPageSize (o : option (Options Dep)) : Z :=
  match o with Some o => with_default (defaultPageSize o) 20 | None => 20 end.

Definition opt_defaultCurrent (o : option (Options Dep)) : Z :=
  match o with Some o => with_default (defaultCurrent o) 1 | None => 1 end.

(** [const { effects = [] } = options || {}]. *)
Definition opt_effects (o : option (Options Dep)) : list Dep :=
  match o with Some o => with_default (effects o) [] | None => [] end.

(** The object literal given to [useState] and built again in [reset]. *)
Definition defaultPageInfo (o : option (Options Dep)) : PageInfo :=
  {| hasMore := false;
     page := or_num (opt_defaultCurrent o) 1;
     total := 0;
     pageSize := opt_defaultPageSize o |}.

(** [{ ...pageInfo, ...info }]. *)
Definition merge (p : PageInfo) (info : PartialPageInfo) : PageInfo :=
  {| hasMore := with_default (part_hasMore info) (hasMore p);
     page := with_default (part_page info) (page p);
     pageSize := with_default (part_pageSize info) (pageSize p);
     total := with_default (part_total info) (total p) |}.

Definition set_page (p : PageInfo) (n : Z) : PageInfo :=
  {| hasMore := hasMore p; page := n; pageSize := pageSize p; total := total p |}.

(** [await x]: a rejection is thrown at the [await]. *)
Definition await (o : Outcome) : Eff (option RequestData) :=
  match o with
  | Resolved v => ret v
  | Rejected e => throw (Reason e)
  end.

(** [[...list, ...data]]: spreading [undefined] into an array throws. *)
Definition spread (l : list T) (d : option (list T)) : Eff (list T) :=
  match d with
  | Some d => ret (l ++ d)
  | None => throw TypeError
  end.

(** [fetchList], lines 78-90, up to the [await]. *)
Definition fetchList (env : Env) (isAppend : bool) : Eff unit :=
  if truthy_bool (env_loading env) then ret tt
  else
    emit (SetLoading true) ;;
    emit (GetData {| req_params :=
                       {| param_current := page (env_pageInfo env);
                          param_pageSize := pageSize (env_pageInfo env) |};
                     req_env := env;
                     req_isAppend := isAppend |}).

(** The body of the [try] after the [await], lines 86-102. *)
Definition fetchList_body (r : Request) (o : Outcome) : Eff unit :=
  let env := req_env r in
  let pageInfo := env_pageInfo env in
  v <- await o ;;
  let d := match v with Some rd => Some (data rd) | None => None end in
  let succ := match v with Some rd => success rd | None => None end in
  let dataTotal :=
    with_default (match v with Some rd => rd_total rd | None => None end) 0 in
  (match succ with
   | Some false => ret tt
   | _ =>
     (match req_isAppend r, env_list env with
      | true, Some l => l' <- spread l d ;; emit (SetList (Some l'))
      | _, _ => emit (SetList d)
      end) ;;
     emit (SetPageInfo
             {| hasMore := dataTotal >? pageSize pageInfo * page pageInfo;
                page := page pageInfo;
                pageSize := pageSize pageInfo;
                total := dataTotal |})
   end) ;;
  emit (OnLoad d).

(** [fetchList] from the [await] on: try, catch, finally. *)
Definition fetchList_resume (r : Request) (o : Outcome) : Eff unit :=
  try_finally
    (try_catch (fetchList_body r o) (fun e => emit (OnRequestError e)))
    (emit (SetLoading false)).

(** [fetchMore], lines 110-115. *)
Definition fetchMore (env : Env) : Eff unit :=
  let pageInfo := env_pageInfo env in
  if hasMore pageInfo then emit (SetPageInfo (set_page pageInfo (page pageInfo + 1)))
  else ret tt.

(** [list.length] on a list that may be [undefined]. *)
Definition length_of (l : option (list T)) : Eff Z :=
  match l with
  | Some l => ret (Z.of_nat (length l))
  | None => throw TypeError
  end.

(** The guard of the page effect, line 124. *)
Definition page_guard (env : Env) : bool :=
  let pageInfo := env_pageInfo env in
  (negb (truthy_num (env_prePage env))
   || strict_eq_num (env_prePage env) (page pageInfo))
  && (negb (truthy_num (env_prePageSize env))
      || strict_eq_num (env_prePageSize env) (pageSize pageInfo)).

(** The effect on [[pageInfo.page]], lines 120-135.  [page] has type
    [number], so [page !== undefined] holds and the condition is the
    comparison of lengths. *)
Definition pageEffect (env : Env) : Eff unit :=
  if page_guard env then ret tt
  else
    len <- length_of (env_list env) ;;
    if len <=? pageSize (env_pageInfo env) then fetchList env false
    else ret tt.

(** The effect on [[pageInfo.pageSize]], lines 138-144. *)
Definition pageSizeEffect (env : Env) : Eff unit :=
  if negb (truthy_num (env_prePageSize env)) then ret tt
  else
    emit (SetPageInfo (set_page (env_pageInfo env) 1)) ;;
    fetchList env false.

(** The effect on [effects], lines 153-155. *)
Definition effectsEffect (env : Env) : Eff unit :=
  fetchList env false.

(** [resetPageIndex], lines 149-151. *)
Definition resetPageIndex (env : Env) : Eff unit :=
  emit (SetPageInfo (set_page (env_pageInfo env) 1)).

(** [reset] of the returned object, lines 166-173. *)
Definition reset (env : Env) : Eff unit :=
  emit (SetPageInfo (defaultPageInfo (env_options env))).

(** [setPageInfo] of the returned object, lines 175-179. *)
Definition setPageInfo (env : Env) (info : PartialPageInfo) : Eff unit :=
  emit (SetPageInfo (merge (env_pageInfo env) info)).

(** [reload] of the returned object is [fetchList] itself. *)
Definition reload (env : Env) : Eff unit := fetchList env false.

(** ** The host: state cells, refs, effects and renders

    What React does with the hook, as far as the hook uses it: [useState]
    cells, the two [useRef] cells of [usePrevious], and [useEffect] with
    a dependency list.  After every render the effects run in the order
    the hook declares them; the state setters they call take effect
    together, and a render follows. *)

Variable dep_eqb : Dep -> Dep -> bool.

Record HookState : Type := mkHookState {
  st_list : option (list T);
  st_loading : option bool;
  st_pageInfo : PageInfo;
  ref_prePage : option Z;
  ref_prePageSize : option Z;
  dep_page : option Z;
  dep_pageSize : option Z;
  dep_effects : option (list Dep)
}.

(** The first call of the hook: [useState(defaultData)],
    [useState(undefined)], [useState({...})], empty refs. *)
Definition initial (defaultData : option (list T)) (o : option (Options Dep))
  : HookState :=
  {| st_list := defaultData;
     st_loading := None;
     st_pageInfo := defaultPageInfo o;
     ref_prePage := None;
     ref_prePageSize := None;
     dep_page := None;
     dep_pageSize := None;
     dep_effects := None |}.

(** One call of the hook: [usePrevious] returns [ref.current] as it is
    during the render. *)
Definition render (o : option (Options Dep)) (s : HookState) : Env :=
  {| env_options := o;
     env_list := st_list s;
     env_loading := st_loading s;
     env_pageInfo := st_pageInfo s;
     env_prePage := ref_prePage s;
     env_prePageSize := ref_prePageSize s |}.

(** The projections of the returned object. *)
Definition dataSource (env : Env) : option (list T) := env_list env.
Definition current (env : Env) : Z := page (env_pageInfo env).

Fixpoint deps_eqb (a b : list Dep) : bool :=
  match a, b with
  | [], [] => true
  | x :: a, y :: b => dep_eqb x y && deps_eqb a b
  | _, _ => false
  end.

Definition same_deps (prev : option (list Dep)) (cur : list Dep) : bool :=
  match prev with Some p => deps_eqb p cur | None => false end.

(** The effects of one render, in declaration order: the two of
    [usePrevious] (no dependency list: every render), then the three of
    the hook, each when its dependencies changed or on the first render. *)
Definition run_effects (o : option (Options Dep)) (s : HookState)
  : HookState * Eff unit :=
  let env := render o s in
  let p := st_pageInfo s in
  ({| st_list := st_list s;
      st_loading := st_loading s;
      st_pageInfo := p;
      ref_prePage := Some (page p);
      ref_prePageSize := Some (pageSize p);
      dep_page := Some (page p);
      dep_pageSize := Some (pageSize p);
      dep_effects := Some (opt_effects o) |},
   (if strict_eq_num (dep_page s) (page p) then ret tt else pageEffect env) ;;
   (if strict_eq_num (dep_pageSize s) (pageSize p) then ret tt else pageSizeEffect env) ;;
   (if same_deps (dep_effects s) (opt_effects o) then ret tt else effectsEffect env)).

(** The hook in its surroundings: the options of the last render, the
    calls of [getData] not yet settled, and everything logged so far. *)
Record World : Type := mkWorld {
  hook : HookState;
  options : option (Options Dep);
  pending : list Request;
  trace : list Cmd
}.

Definition set_hook (w : World) (h : HookState) : World :=
  {| hook := h; options := options w; pending := pending w; trace := trace w |}.

Definition apply_cmd (w : World) (c : Cmd) : World :=
  let s := hook w in
  let h :=
    match c with
    | SetList l =>
      {| st_list := l; st_loading := st_loading s; st_pageInfo := st_pageInfo s;
         ref_prePage := ref_prePage s; ref_prePageSize := ref_prePageSize s;
         dep_page := dep_page s; dep_pageSize := dep_pageSize s;
         dep_effects := dep_effects s |}
    | SetLoading b =>
      {| st_list := st_list s; st_loading := Some b; st_pageInfo := st_pageInfo s;
         ref_prePage := ref_prePage s; ref_prePageSize := ref_prePageSize s;
         dep_page := dep_page s; dep_pageSize := dep_pageSize s;
         dep_effects := dep_effects s |}
    | SetPageInfo p =>
      {| st_list := st_list s; st_loading := st_loading s; st_pageInfo := p;
         ref_prePage := ref_prePage s; ref_prePageSize := ref_prePageSize s;
         dep_page := dep_page s; dep_pageSize := dep_pageSize s;
         dep_effects := dep_effects s |}
    | _ => s
    end in
  {| hook := h;
     options := options w;
     pending := match c with GetData r => pending w ++ [r] | _ => pending w end;
     trace := trace w ++ [c] |}.

Definition apply_cmds (w : World) (l : list Cmd) : World :=
  fold_left apply_cmd l w.

Definition is_setter (c : Cmd) : bool :=
  match c with SetList _ | SetLoading _ | SetPageInfo _ => true | _ => false end.

Inductive Run : Type :=
| Done (w : World)
| Crashed (e : JsError) (w : World)
| OutOfFuel.

(** Render, run the effects, apply what they set; again while they set
    something. *)
Fixpoint settle (fuel : nat) (w : World) : Run :=
  match fuel with
  | O => OutOfFuel
  | S fuel =>
    let (h, eff) := run_effects (options w) (hook w) in
    let w' := apply_cmds (set_hook w h) (log eff) in
    match completion eff with
    | Throw e => Crashed e w'
    | Normal _ => if existsb is_setter (log eff) then settle fuel w' else Done w'
    end
  end.

(** The commands of a handler or of a continuation reach the state
    either together, with one render after them ([batched]), or one by
    one with a render after every setter. *)
Fixpoint dispatch_each (fuel : nat) (l : list Cmd) (w : World) : Run :=
  match l with
  | [] => Done w
  | c :: l =>
    if is_setter c then
      match settle fuel (apply_cmd w c) with
      | Done w' => dispatch_each fuel l w'
      | r => r
      end
    else dispatch_each fuel l (apply_cmd w c)
  end.

Definition dispatch (batched : bool) (fuel : nat) (l : list Cmd) (w : World) : Run :=
  if batched then
    if existsb is_setter l then settle fuel (apply_cmds w l)
    else Done (apply_cmds w l)
  else dispatch_each fuel l w.

(** The functions of the returned object, as a caller names them. *)
Inductive Action : Type :=
| AReload
| AFetchMore
| AResetPageIndex
| AReset
| ASetPageInfo (info : PartialPageInfo).

Definition act (env : Env) (a : Action) : Eff unit :=
  match a with
  | AReload => reload env
  | AFetchMore => fetchMore env
  | AResetPageIndex => resetPageIndex env
  | AReset => reset env
  | ASetPageInfo info => setPageInfo env info
  end.

(** Caller code that holds the object one render returned and calls
    these functions of it, one after the other. *)
Fixpoint handler (env : Env) (l : list Action) : Eff unit :=
  match l with
  | [] => ret tt
  | a :: l => act env a ;; handler env l
  end.

Inductive Input : Type :=
| Call (l : list Action)
| Settle (i : nat) (o : Outcome)
| Rerender (o : option (Options Dep)).

Fixpoint remove_nth {A} (i : nat) (l : list A) : list A :=
  match i, l with
  | _, [] => []
  | O, _ :: l => l
  | S i, x :: l => x :: remove_nth i l
  end.

Definition step (batched : bool) (fuel : nat) (w : World) (i : Input) : Run :=
  match i with
  | Call l =>
    dispatch batched fuel (log (handler (render (options w) (hook w)) l)) w
  | Settle n o =>
    match nth_error (pending w) n with
    | None => Done w
    | Some r =>
      dispatch batched fuel (log (fetchList_resume r o))
        {| hook := hook w; options := options w;
           pending := remove_nth n (pending w); trace := trace w |}
    end
  | Rerender o =>
    settle fuel
      {| hook := hook w; options := o; pending := pending w; trace := trace w |}
  end.

Fixpoint steps (batched : bool) (fuel : nat) (w : World) (l : list Input) : Run :=
  match l with
  | [] => Done w
  | i :: l =>
    match step batched fuel w i with
    | Done w' => steps batched fuel w' l
    | r => r
    end
  end.

(** Mounting: the first render and its effects. *)
Definition mount (fuel : nat) (defaultData : option (list T))
  (o : option (Options Dep)) : Run :=
  settle fuel
    {| hook := initial defaultData o; options := o; pending := []; trace := [] |}.

Definition run (batched : bool) (fuel : nat) (defaultData : option (list T))
  (o : option (Options Dep)) (l : list Input) : Run :=
  match mount fuel defaultData o with
  | Done w => steps batched fuel w l
  | r => r
  end.

(** What a trace shows. *)
Definition getData_calls (l : list Cmd) : list Params :=
  flat_map (fun c => match c with GetData r => [req_params r] | _ => [] end) l.

Definition onLoad_calls (l : list Cmd) : list (option (list T)) :=
  flat_map (fun c => match c with OnLoad d => [d] | _ => [] end) l.

Definition onRequestError_calls (l : list Cmd) : list JsError :=
  flat_map (fun c => match c with OnRequestError e => [e] | _ => [] end) l.

Definition setList_calls (l : list Cmd) : list (option (list T)) :=
  flat_map (fun c => match c with SetList d => [d] | _ => [] end) l.


Definition setLoading_calls (l : list Cmd) : list bool :=
  flat_map (fun c => match c with SetLoading b => [b] | _ => [] end) l.

End Hook.


(** ** Concrete data for the runs below: records are integers, a
    rejection reason is a number, dependencies are integers. *)
Module Examples.

Definition fuel : nat := 16%nat.

(** A data source answer [{ data: d, total: t }]. *)
Definition ok (d : list Z) (t : Z) : Outcome (T:=Z) (E:=nat) :=
  Resolved (Some {| data := d; success := None; rd_total := Some t |}).

(** The answer [{ success: false, data: [99] }]. *)
Definition refused : RequestData (T:=Z) :=
  {| data := [99]; success := Some false; rd_total := None |}.

(** [{ defaultPageSize: n }] and [{ defaultCurrent: c, defaultPageSize: n }]. *)
Definition opts_pageSize (n : Z) : option (Options Z) :=
  Some {| defaultCurrent := None; defaultPageSize := Some n; effects := None |}.

Definition opts_page_pageSize (c n : Z) : option (Options Z) :=
  Some {| defaultCurrent := Some c; defaultPageSize := Some n; effects := None |}.

(** [setPageInfo({ pageSize: n })], [setPageInfo({ page: n })] and
    [setPageInfo({ hasMore: b })]. *)
Definition info_pageSize (n : Z) : PartialPageInfo :=
  {| part_hasMore := None; part_page := None;
     part_pageSize := Some n; part_total := None |}.

Definition info_page (n : Z) : PartialPageInfo :=
  {| part_hasMore := None; part_page := Some n;
     part_pageSize := None; part_total := None |}.


(** A render of an idle hook: list [l], page info [p], the previous page
    and page size as given. *)
Definition idle (l : option (list Z)) (p : PageInfo) (prePage prePageSize : option Z)
  : Env (T:=Z) (Dep:=Z) :=
  {| env_options := None;
     env_list := l;
     env_loading := Some false;
     env_pageInfo := p;
     env_prePage := prePage;
     env_prePageSize := prePageSize |}.

(** The request that render would start. *)
Definition request_of (env : Env (T:=Z) (Dep:=Z)) (isAppend : bool)
  : Request (T:=Z) (Dep:=Z) :=
  {| req_params := {| param_current := page (env_pageInfo env);
                      param_pageSize := pageSize (env_pageInfo env) |};
     req_env := env;
     req_isAppend := isAppend |}.

Definition empty_world (s : HookState (T:=Z) (Dep:=Z)) : World (T:=Z) (E:=nat) (Dep:=Z) :=
  {| hook := s; options := None; pending := []; trace := [] |}.

End Examples.

(** ** usePrevious, lines 3-11

    One ref cell.  A render returns what the cell holds; the effect after
    the render stores the state of that render in it. *)
Definition usePrevious {A : Type} (ref : option A) (state : A)
  : option A * option A :=
  (ref, Some state).

(** The values [usePrevious] returns over consecutive renders, given the
    state of each render. *)
Fixpoint usePrevious_renders {A : Type} (ref : option A) (states : list A)
  : list (option A) :=
  match states with
  | [] => []
  | s :: rest =>
    let (returned, ref') := usePrevious ref s in
    returned :: usePrevious_renders ref' rest
  end.

(** [{ ...a, ...b }] on two partial page infos. *)
Definition override (a b : PartialPageInfo) : PartialPageInfo :=
  {| part_hasMore :=
       match part_hasMore b with Some v => Some v | None => part_hasMore a end;
     part_page :=
       match part_page b with Some v => Some v | None => part_page a end;
     part_pageSize :=
       match part_pageSize b with Some v => Some v | None => part_pageSize a end;
     part_total :=
       match part_total b with Some v => Some v | None => part_total a end |}.

(** A hook at rest: the effects of its last render have run and set
    nothing, so the refs and the remembered dependencies are those of
    the state it holds. *)
Definition at_rest {T E Dep : Type} (w : World (T:=T) (E:=E) (Dep:=Dep)) : Prop :=
  ref_prePage (hook w) = Some (page (st_pageInfo (hook w)))
  /\ ref_prePageSize (hook w) = Some (pageSize (st_pageInfo (hook w)))
  /\ dep_page (hook w) = Some (page (st_pageInfo (hook w)))
  /\ dep_pageSize (hook w) = Some (pageSize (st_pageInfo (hook w)))
  /\ dep_effects (hook w) = Some (opt_effects (options w)).

(** The request a render starts when its [fetchList] passes the guard. *)
Definition request_for {T Dep : Type} (env : Env (T:=T) (Dep:=Dep)) (isAppend : bool)
  : Request (T:=T) (Dep:=Dep) :=
  {| req_params := {| param_current := page (env_pageInfo env);
                      param_pageSize := pageSize (env_pageInfo env) |};
     req_env := env;
     req_isAppend := isAppend |}.

(** ** Concrete worlds for the runs below: page size 2, ten records,
    page 2 loaded. *)
Module Worlds.

Definition cells (loading : option bool) : HookState (T:=Z) (Dep:=Z) :=
  {| st_list := Some [3; 4];
     st_loading := loading;
     st_pageInfo := mkPageInfo true 2 2 10;
     ref_prePage := Some 2;
     ref_prePageSize := Some 2;
     dep_page := Some 2;
     dep_pageSize := Some 2;
     dep_effects := Some [] |}.

(** Idle, nothing pending. *)
Definition loaded : World (T:=Z) (E:=nat) (Dep:=Z) :=
  {| hook := cells (Some false);
     options := Examples.opts_pageSize 2;
     pending := [];
     trace := [] |}.

(** The request a [reload()] of the idle hook starts. *)
Definition asked : Request (T:=Z) (Dep:=Z) :=
  request_for (render (Examples.opts_pageSize 2) (cells (Some false))) false.

(** The same hook while that request is pending. *)
Definition asking : World (T:=Z) (E:=nat) (Dep:=Z) :=
  {| hook := cells (Some true);
     options := Examples.opts_pageSize 2;
     pending := [asked];
     trace := [SetLoading true; GetData asked] |}.


(** The answer [{ data: [5, 6], total: 10 }]. *)
Definition answer : RequestData (T:=Z) :=
  {| data := [5; 6]; success := None; rd_total := Some 10 |}.

End Worlds.

(** * Properties *)

Section Properties.

Context {T E Dep : Type}.

Local Abbreviation Env := (@Env T Dep).
Local Abbreviation Request := (@Request T Dep).
Local Abbreviation World := (@World T E Dep).
Local Abbreviation Outcome := (@Outcome T E).

(** ** The fetch procedure *)

(** The in-flight guard: a closure that captured [loading === true]
    returns at once. *)
Lemma fetchList_loading_noop (env : Env) (isAppend : bool) :
  env_loading env = Some true ->
  fetchList (E:=E) env isAppend = ret tt.
Proof.
  intros H. unfold fetchList. rewrite H. reflexivity.
Qed.

(** A closure that did not capture [loading === true] starts a request
    with the page and page size it captured. *)
Lemma fetchList_starts (env : Env) (isAppend : bool) :
  truthy_bool (env_loading env) = false ->
  fetchList (E:=E) env isAppend =
  ([SetLoading true;
    GetData {| req_params :=
                 {| param_current := page (env_pageInfo env);
                    param_pageSize := pageSize (env_pageInfo env) |};
               req_env := env;
               req_isAppend := isAppend |}],
   Normal tt).
Proof.
  intros H. unfold fetchList. rewrite H. reflexivity.
Qed.

(** The sync part never throws. *)
Lemma fetchList_completes (env : Env) (isAppend : bool) :
  completion (fetchList (E:=E) env isAppend) = Normal tt.
Proof.
  unfold fetchList. destruct (truthy_bool (env_loading env)); reflexivity.
Qed.

(** What a resolved request logs when the outcome has [success === false]. *)
Lemma resume_success_false (r : Request) (rd : RequestData (T:=T)) :
  success rd = Some false ->
  fetchList_resume (E:=E) r (Resolved (Some rd)) =
  ([OnLoad (Some (data rd)); SetLoading false], Normal tt).
Proof.
  intros H. cbv [fetchList_resume fetchList_body await bind ret].
  rewrite H. reflexivity.
Qed.

(** What a rejected request logs. *)
Lemma resume_rejected (r : Request) (e : E) :
  fetchList_resume r (Rejected e) =
  ([OnRequestError (Reason e); SetLoading false], Normal tt).
Proof. reflexivity. Qed.

(** Replace mode: the list becomes the data received, whatever it was. *)
Lemma resume_replace (r : Request) (rd : RequestData (T:=T)) :
  req_isAppend r = false ->
  success rd <> Some false ->
  setList_calls (log (fetchList_resume (E:=E) r (Resolved (Some rd))))
  = [Some (data rd)].
Proof.
  intros Ha Hs. cbv [fetchList_resume fetchList_body await bind ret].
  rewrite Ha.
  destruct (success rd) as [[|]|]; try congruence; reflexivity.
Qed.

(** Append mode exists in the procedure: with [isAppend] and a defined
    list, the data goes after the list the closure captured. *)
Lemma resume_append (r : Request) (rd : RequestData (T:=T)) (l : list T) :
  req_isAppend r = true ->
  env_list (req_env r) = Some l ->
  success rd <> Some false ->
  setList_calls (log (fetchList_resume (E:=E) r (Resolved (Some rd))))
  = [Some (l ++ data rd)].
Proof.
  intros Ha Hl Hs. cbv [fetchList_resume fetchList_body await bind ret].
  rewrite Ha, Hl.
  destruct (success rd) as [[|]|]; try congruence; reflexivity.
Qed.

(** The request a call of [fetchList] starts carries the mode the call
    was given. *)
Lemma fetchList_request_mode (env : Env) (isAppend : bool) (r : Request) :
  In (GetData (E:=E) r) (log (fetchList env isAppend)) ->
  req_isAppend r = isAppend /\ req_env r = env.
Proof.
  unfold fetchList. destruct (truthy_bool (env_loading env)); cbn.
  - intros [].
  - intros [H|[H|[]]]; [discriminate|]. inversion H; subst. split; reflexivity.
Qed.

(** Every request the hook's own code starts is in replace mode: no
    effect and no returned function passes [isAppend]. *)
Lemma requests_never_append (env : Env) (m : Eff (T:=T) (E:=E) (Dep:=Dep) unit)
      (r : Request) :
  m = pageEffect env \/ m = pageSizeEffect env \/ m = effectsEffect env
  \/ m = reload env \/ m = fetchMore env ->
  In (GetData r) (log m) -> req_isAppend r = false.
Proof.
  intros Hm Hin.
  pose proof (fetchList_request_mode env false r) as Hf.
  destruct (fetchList (E:=E) env false) as [lf cf] eqn:Ef.
  destruct Hm as [-> | [-> | [-> | [-> | ->]]]].
  - unfold pageEffect in Hin. rewrite Ef in Hin.
    destruct (page_guard env); [cbn in Hin; contradiction|].
    destruct (env_list env) as [l|]; [|cbn in Hin; contradiction].
    cbv [length_of bind ret] in Hin.
    destruct (Z.of_nat (length l) <=? pageSize (env_pageInfo env)); cbn in Hin.
    + apply Hf, Hin.
    + contradiction.
  - unfold pageSizeEffect in Hin. rewrite Ef in Hin.
    destruct (negb (truthy_num (env_prePageSize env))); cbn in Hin.
    + contradiction.
    + destruct Hin as [H|H]; [discriminate|]. apply Hf, H.
  - unfold effectsEffect in Hin. rewrite Ef in Hin. apply Hf, Hin.
  - unfold reload in Hin. rewrite Ef in Hin. apply Hf, Hin.
  - unfold fetchMore in Hin. destruct (hasMore (env_pageInfo env)); cbn in Hin.
    + destruct Hin as [H|[]]. discriminate.
    + contradiction.
Qed.

(** ** Application-level failure *)

(** C3, as amended.  For every fetch whose outcome has [success === false]
    the list and the page info are left as they were and [loading]
    becomes [false]; the [onLoad] callback IS invoked, exactly once, with
    the [data] of the outcome (line 100 is outside the [success] test);
    [onRequestError] is not, and the returned promise is fulfilled. *)
Theorem success_false_keeps_state (r : Request) (rd : RequestData (T:=T)) (w : World) :
  success rd = Some false ->
  let m := fetchList_resume (E:=E) r (Resolved (Some rd)) in
  let w' := apply_cmds w (log m) in
  st_list (hook w') = st_list (hook w)
  /\ st_pageInfo (hook w') = st_pageInfo (hook w)
  /\ st_loading (hook w') = Some false
  /\ onLoad_calls (log m) = [Some (data rd)]
  /\ onRequestError_calls (log m) = []
  /\ completion m = Normal tt.
Proof.
  intros H m w'. subst m w'.
  rewrite (resume_success_false r rd H). cbn.
  repeat split; reflexivity.
Qed.

(** ** Transport failure *)

(** C4.  For every data source that rejects, with reason [e]: the promise
    [reload()] returned is fulfilled (neither the part before the
    [await] nor the part after it completes by throwing),
    [onRequestError] is invoked exactly once, with [e], [loading] becomes
    [false], and the list and the page info are left as they were;
    [onLoad] is not invoked. *)
Theorem rejected_fetch_is_contained (env : Env) (r : Request) (e : E) (w : World) :
  let m := fetchList_resume r (Rejected e) in
  let w' := apply_cmds w (log m) in
  completion (reload (E:=E) env) = Normal tt
  /\ completion m = Normal tt
  /\ onRequestError_calls (log m) = [Reason e]
  /\ st_loading (hook w') = Some false
  /\ st_list (hook w') = st_list (hook w)
  /\ st_pageInfo (hook w') = st_pageInfo (hook w)
  /\ onLoad_calls (log m) = []
  /\ getData_calls (log m) = [].
Proof.
  intros m w'. subst m w'. rewrite resume_rejected. cbn.
  repeat split; try reflexivity. apply fetchList_completes.
Qed.

(** ** The returned setters *)


(** C7, as amended.  [reset()] of a render writes the page info
    [{hasMore: false, page: defaultCurrent || 1, total: 0, pageSize:
    defaultPageSize}] built from the options that render was called
    with, whatever the page info was; it is the page info a hook
    constructed with those options starts from.  [reset] itself leaves
    the list and [loading] alone and calls no data source. *)
Theorem reset_restores_defaults (env : Env) (w : World) :
  let m := reset (E:=E) env in
  let w' := apply_cmds w (log m) in
  st_pageInfo (hook w') =
    {| hasMore := false;
       page := or_num (opt_defaultCurrent (env_options env)) 1;
       total := 0;
       pageSize := opt_defaultPageSize (env_options env) |}
  /\ (forall dd : option (list T),
        st_pageInfo (hook w') = st_pageInfo (initial dd (env_options env)))
  /\ (forall o c, env_options env = Some o -> defaultCurrent o = Some c -> c <> 0 ->
        page (st_pageInfo (hook w')) = c)
  /\ (forall o n, env_options env = Some o -> defaultPageSize o = Some n ->
        pageSize (st_pageInfo (hook w')) = n)
  /\ st_list (hook w') = st_list (hook w)
  /\ st_loading (hook w') = st_loading (hook w)
  /\ getData_calls (log m) = []
  /\ setList_calls (log m) = []
  /\ completion m = Normal tt.
Proof.
  intros m w'. subst m w'. cbn.
  repeat split; try reflexivity.
  - intros o c Ho Hc Hnz. rewrite Ho. cbn. rewrite Hc. cbn.
    unfold or_num. destruct (Z.eqb_spec c 0); [contradiction|reflexivity].
  - intros o n Ho Hn. rewrite Ho. cbn. rewrite Hn. reflexivity.
Qed.

(** ** hasMore *)




(** ** The page-change reaction *)

(** C8.  The page effect does nothing when the page and the page size
    are the ones observed at the previous render.  When the page differs
    from the previous one, it runs the fetch procedure (in replace mode)
    if the list is no longer than [pageSize], and does nothing if it is
    longer; so, unless the render already holds [loading === true], a
    request is started if and only if the length is at most [pageSize].
    ([page] is a number, hence defined.) *)
Theorem pageEffect_decision (env : Env) :
  (env_prePage env = Some (page (env_pageInfo env)) ->
   env_prePageSize env = Some (pageSize (env_pageInfo env)) ->
   pageEffect (E:=E) env = ret tt)
  /\ (forall p l,
        env_prePage env = Some p -> p <> 0 -> p <> page (env_pageInfo env) ->
        env_list env = Some l ->
        (Z.of_nat (length l) <= pageSize (env_pageInfo env) ->
         pageEffect (E:=E) env = fetchList env false)
        /\ (pageSize (env_pageInfo env) < Z.of_nat (length l) ->
            pageEffect (E:=E) env = ret tt)
        /\ (truthy_bool (env_loading env) = false ->
            (getData_calls (log (pageEffect (E:=E) env)) <> [] <->
             Z.of_nat (length l) <= pageSize (env_pageInfo env)))).
Proof.
  split.
  - intros Hp Hs. unfold pageEffect, page_guard. rewrite Hp, Hs. cbn.
    rewrite !Z.eqb_refl, !orb_true_r. reflexivity.
  - intros p l Hp Hnz Hne Hl.
    assert (Hg : page_guard env = false).
    { unfold page_guard. rewrite Hp. cbn.
      destruct (Z.eqb_spec p 0); [contradiction|].
      destruct (Z.eqb_spec p (page (env_pageInfo env))); [contradiction|].
      reflexivity. }
    assert (Heq : pageEffect (E:=E) env =
                  if Z.of_nat (length l) <=? pageSize (env_pageInfo env)
                  then fetchList env false else ret tt).
    { unfold pageEffect. rewrite Hg, Hl. cbv [length_of bind ret].
      destruct (Z.of_nat (length l) <=? pageSize (env_pageInfo env)).
      - destruct (fetchList env false); reflexivity.
      - reflexivity. }
    rewrite Heq.
    destruct (Z.leb_spec (Z.of_nat (length l)) (pageSize (env_pageInfo env))).
    + repeat split; try reflexivity; try lia.
      intros _. rewrite (fetchList_starts env false H0). cbn. discriminate.
    + repeat split; try reflexivity; try lia.
      cbn. intros Hc. contradiction.
Qed.

(** C10.  A hook constructed without [defaultData] has an undefined
    list.  With an undefined list the page effect throws a TypeError as
    soon as its guard lets it through, which every change of a (non
    zero) previous page does; with a defined list it completes normally.
    The list is defined when [defaultData] was given, and a fetch that
    resolves with an object whose [success] is not [false] sets it to a
    defined list. *)
Theorem pageEffect_needs_list (env : Env) (o : option (Options Dep)) :
  st_list (initial (T:=T) None o) = None
  /\ (env_list env = None -> page_guard env = false ->
      pageEffect (E:=E) env = throw TypeError)
  /\ (forall p, env_list env = None ->
        env_prePage env = Some p -> p <> 0 -> p <> page (env_pageInfo env) ->
        pageEffect (E:=E) env = throw TypeError)
  /\ (forall l, env_list env = Some l ->
        completion (pageEffect (E:=E) env) = Normal tt)
  /\ (forall dd : list T, env_list (render o (initial (Some dd) o)) = Some dd)
  /\ (forall (r : Request) (rd : RequestData (T:=T)), success rd <> Some false ->
        exists l, setList_calls (log (fetchList_resume (E:=E) r (Resolved (Some rd))))
                  = [Some l]).
Proof.
  assert (Hthrow : env_list env = None -> page_guard env = false ->
                   pageEffect (E:=E) env = throw TypeError).
  { intros Hl Hg. unfold pageEffect. rewrite Hg, Hl. reflexivity. }
  repeat split.
  - exact Hthrow.
  - intros p Hl Hp Hnz Hne. apply Hthrow; [exact Hl|].
    unfold page_guard. rewrite Hp. cbn.
    destruct (Z.eqb_spec p 0); [contradiction|].
    destruct (Z.eqb_spec p (page (env_pageInfo env))); [contradiction|].
    reflexivity.
  - intros l Hl. unfold pageEffect. rewrite Hl.
    destruct (page_guard env); [reflexivity|].
    cbv [length_of bind ret].
    destruct (Z.of_nat (length l) <=? pageSize (env_pageInfo env)); [|reflexivity].
    pose proof (fetchList_completes env false) as Hc.
    destruct (fetchList env false) as [lf cf]. cbn in *. exact Hc.
  - intros r rd Hs.
    cbv [fetchList_resume fetchList_body await bind ret].
    destruct (success rd) as [[|]|]; try congruence;
      destruct (req_isAppend r); destruct (env_list (req_env r));
      eexists; reflexivity.
Qed.

End Properties.

(** * Runs *)

Import Examples.

(** ** One request at a time *)

(** Two calls of the [reload] of one render, when that render does not
    hold [loading === true]: both pass the guard. *)
Lemma reload_twice_one_closure (env : Env (T:=Z) (Dep:=Z)) :
  truthy_bool (env_loading env) = false ->
  length (getData_calls (log (handler (E:=nat) env [AReload; AReload]))) = 2%nat.
Proof.
  intros H. cbn. unfold reload. rewrite (fetchList_starts (E:=nat) env false H).
  reflexivity.
Qed.

(** The same two calls on a render that holds [loading === true] do
    nothing. *)
Lemma reload_twice_while_loading (env : Env (T:=Z) (Dep:=Z)) :
  env_loading env = Some true ->
  handler (E:=nat) env [AReload; AReload] = ret tt.
Proof.
  intros H. cbn. unfold reload. rewrite (fetchList_loading_noop (E:=nat) env false H).
  reflexivity.
Qed.

(** When a render separates the two calls, the second one sees
    [loading === true]: one request besides the one of the mount. *)
Example reload_twice_two_renders (batched : bool) :
  exists w,
    run Z.eqb batched fuel (Some []) None
        [Settle 0 (ok [1; 2] 2); Call [AReload]; Call [AReload]] = Done w
    /\ length (getData_calls (trace w)) = 2%nat
    /\ length (pending w) = 1%nat.
Proof. destruct batched; eexists; vm_compute; repeat split. Qed.

(** C1, at the failing input.  A hook is mounted with [defaultData = []]
    and no options, and its first request resolves with [{data: [1,2],
    total: 2}]; the caller then calls [reload()] twice on the object the
    last render returned.  The trace holds three calls of [getData] (the
    one of the mount and two for the two [reload()]s, with the same
    parameters) and two requests are pending together. *)
Theorem reload_twice_same_render (batched : bool) :
  exists w,
    run Z.eqb batched fuel (Some []) None
        [Settle 0 (ok [1; 2] 2); Call [AReload; AReload]] = Done w
    /\ getData_calls (trace w) =
       [ {| param_current := 1; param_pageSize := 20 |};
         {| param_current := 1; param_pageSize := 20 |};
         {| param_current := 1; param_pageSize := 20 |} ]
    /\ length (pending w) = 2%nat.
Proof. destruct batched; eexists; vm_compute; repeat split. Qed.

(** The reactions alone can do the same: a change of page and page size
    in one [setPageInfo] makes the page effect and the pageSize effect of
    one render both start a request. *)
Example page_and_pageSize_change_two_requests (batched : bool) :
  exists w,
    run Z.eqb batched fuel (Some []) None
        [Settle 0 (ok [1; 2] 200);
         Call [ASetPageInfo {| part_hasMore := None; part_page := Some 2;
                               part_pageSize := Some 50; part_total := None |}]]
    = Done w
    /\ length (pending w) = 2%nat.
Proof. destruct batched; eexists; vm_compute; repeat split. Qed.

(** ** fetchMore *)

(** [fetchMore] does nothing when the render holds [hasMore === false]. *)
Lemma fetchMore_no_more (env : Env (T:=Z) (Dep:=Z)) :
  hasMore (env_pageInfo env) = false -> fetchMore (E:=nat) env = ret tt.
Proof. intros H. unfold fetchMore. rewrite H. reflexivity. Qed.

(** Otherwise it writes the page info of the render with [page + 1]. *)
Lemma fetchMore_next_page (env : Env (T:=Z) (Dep:=Z)) :
  hasMore (env_pageInfo env) = true ->
  fetchMore (E:=nat) env =
  ([SetPageInfo {| hasMore := true;
                   page := page (env_pageInfo env) + 1;
                   pageSize := pageSize (env_pageInfo env);
                   total := total (env_pageInfo env) |}], Normal tt).
Proof.
  intros H. unfold fetchMore, set_page. rewrite H. reflexivity.
Qed.

(** C2, at the failing input.  Page size 2, a data source that answers
    [[1,2]] and then [[3,4]] (total 4): after the first load
    [fetchMore()] moves to page 2 and the page effect asks for that page,
    but in replace mode, so that the list ends as [[3,4]] and not as
    [[1,2,3,4]]. *)
Theorem fetchMore_replaces (batched : bool) :
  exists w,
    run Z.eqb batched fuel None (opts_pageSize 2)
        [Settle 0 (ok [1; 2] 4); Call [AFetchMore]; Settle 0 (ok [3; 4] 4)] = Done w
    /\ dataSource (render (options w) (hook w)) = Some [3; 4]
    /\ current (render (options w) (hook w)) = 2
    /\ getData_calls (trace w) =
       [ {| param_current := 1; param_pageSize := 2 |};
         {| param_current := 2; param_pageSize := 2 |} ]
    /\ pending w = [].
Proof. destruct batched; eexists; vm_compute; repeat split. Qed.

(** [reload()] after the first load replaces as well. *)
Example reload_replaces (batched : bool) :
  exists w,
    run Z.eqb batched fuel None (opts_pageSize 2)
        [Settle 0 (ok [1; 2] 4); Call [AReload]; Settle 0 (ok [3; 4] 4)] = Done w
    /\ dataSource (render (options w) (hook w)) = Some [3; 4].
Proof. destruct batched; eexists; vm_compute; repeat split. Qed.

(** ** success: false *)

(** C3, the claim as stated fails: on [{success: false, data: [99]}] the
    [onLoad] callback is invoked. *)
Lemma success_false_onLoad_invoked :
  onLoad_calls
    (log (fetchList_resume (E:=nat)
            (request_of (idle (Some [1; 2]) (mkPageInfo false 1 20 2) (Some 1) (Some 20)) false)
            (Resolved (Some refused))))
  <> [].
Proof. vm_compute. discriminate. Qed.

Lemma success_false_keeps_state_witness :
  success refused = Some false
  /\ onLoad_calls
       (log (fetchList_resume (E:=nat)
               (request_of (idle (Some [1; 2]) (mkPageInfo false 1 20 2) (Some 1) (Some 20)) false)
               (Resolved (Some refused))))
     = [Some [99]].
Proof.
  split; [reflexivity|].
  exact (proj1 (proj2 (proj2 (proj2
    (success_false_keeps_state (E:=nat)
       (request_of (idle (Some [1; 2]) (mkPageInfo false 1 20 2) (Some 1) (Some 20)) false)
       refused
       (empty_world (initial (Some [1; 2]) None))
       eq_refl))))).
Defined.

(** ** hasMore *)


(** ** pageSize *)

(** What the pageSize effect does when a previous page size exists: page
    1 is written and the fetch procedure runs, in replace mode and for
    any length of the list, with the page info the render captured. *)
Lemma pageSizeEffect_resets_and_fetches (env : Env (T:=Z) (Dep:=Z)) :
  truthy_num (env_prePageSize env) = true ->
  pageSizeEffect (E:=nat) env =
  bind (emit (SetPageInfo (set_page (env_pageInfo env) 1)))
       (fun _ => fetchList env false).
Proof.
  intros H. unfold pageSizeEffect. rewrite H. reflexivity.
Qed.

(** C6, at the failing input.  A hook at page 3 with page size 20 has
    loaded (total 200); the caller calls [setPageInfo({pageSize: 50})].
    The pageSize effect writes page 1 and starts a request, which asks
    for page 3 (the one its render captured): while that request is
    pending [current] is 1.  When it resolves, its continuation writes
    the page info it captured, and [current] is 3 again once everything
    has settled. *)
Theorem pageSize_change_page_returns (batched : bool) :
  exists w1 w2,
    run Z.eqb batched fuel (Some []) (opts_page_pageSize 3 20)
        [Settle 0 (ok [1; 2] 200); Call [ASetPageInfo (info_pageSize 50)]] = Done w1
    /\ current (render (options w1) (hook w1)) = 1
    /\ map (@req_params Z Z) (pending w1) = [ {| param_current := 3; param_pageSize := 50 |} ]
    /\ run Z.eqb batched fuel (Some []) (opts_page_pageSize 3 20)
           [Settle 0 (ok [1; 2] 200); Call [ASetPageInfo (info_pageSize 50)];
            Settle 0 (ok [7; 8] 200); Settle 0 (ok [7; 8] 200)] = Done w2
    /\ pending w2 = []
    /\ st_loading (hook w2) = Some false
    /\ pageSize (st_pageInfo (hook w2)) = 50
    /\ current (render (options w2) (hook w2)) = 3.
Proof. destruct batched; do 2 eexists; vm_compute; repeat split. Qed.

(** ** reset *)

(** C7, the claim as stated fails: a hook constructed with
    [defaultPageSize: 20] and rendered again with [defaultPageSize: 50]
    resets to page size 50, not to the 20 of its construction. *)
Lemma reset_follows_the_latest_options :
  exists w,
    run (E:=nat) Z.eqb true fuel (Some [1; 2]) (opts_pageSize 20)
        [Settle 0 (ok [1; 2] 2); Rerender (opts_pageSize 50); Call [AReset]] = Done w
    /\ pageSize (st_pageInfo (hook w)) = 50
    /\ pageSize (st_pageInfo (initial (Some [1; 2]) (opts_pageSize 20))) = 20.
Proof. eexists; vm_compute; repeat split. Qed.

(** With the same options at every render, a reset after changes of page
    and page size gives the page info of the construction. *)
Example reset_after_changes (batched : bool) :
  exists w,
    run (E:=nat) Z.eqb batched fuel (Some [1; 2]) (opts_page_pageSize 2 20)
        [Settle 0 (ok [1; 2] 200);
         Call [ASetPageInfo (info_page 4)]; Settle 0 (ok [5; 6] 200);
         Call [AReset]] = Done w
    /\ st_pageInfo (hook w) = mkPageInfo false 2 20 0.
Proof. destruct batched; eexists; vm_compute; repeat split. Qed.

(** ** The page effect *)

Lemma pageEffect_decision_witness :
  pageEffect (E:=nat)
    (idle (Some [3; 4]) (mkPageInfo true 2 2 4) (Some 1) (Some 2))
  = fetchList (idle (Some [3; 4]) (mkPageInfo true 2 2 4) (Some 1) (Some 2)) false.
Proof.
  refine (proj1 (proj2 (pageEffect_decision (E:=nat)
                          (idle (Some [3; 4]) (mkPageInfo true 2 2 4) (Some 1) (Some 2)))
                       1 [3; 4] eq_refl _ _ eq_refl) _).
  - discriminate.
  - cbn. discriminate.
  - cbn. lia.
Defined.

(** A list longer than a page: the page changes and nothing is asked. *)
Example long_list_suppresses_fetch (batched : bool) :
  exists w,
    run (E:=nat) Z.eqb batched fuel None (opts_pageSize 2)
        [Settle 0 (ok [1; 2; 3; 4; 5] 5); Call [ASetPageInfo (info_page 2)]] = Done w
    /\ current (render (options w) (hook w)) = 2
    /\ length (getData_calls (trace w)) = 1%nat.
Proof. destruct batched; eexists; vm_compute; repeat split. Qed.

Lemma pageEffect_needs_list_witness :
  pageEffect (E:=nat) (idle None (mkPageInfo false 2 20 0) (Some 1) (Some 20))
  = throw TypeError.
Proof.
  destruct (pageEffect_needs_list (E:=nat)
              (idle None (mkPageInfo false 2 20 0) (Some 1) (Some 20)) None)
    as (_ & _ & H & _).
  apply (H 1); try reflexivity; discriminate.
Defined.

(** No [defaultData], and the page changes while the first request is
    pending: the effect throws. *)
Example page_change_before_first_load (batched : bool) :
  exists w,
    run (T:=Z) (E:=nat) Z.eqb batched fuel None None
        [Call [ASetPageInfo (info_page 2)]] = Crashed TypeError w.
Proof. destruct batched; eexists; vm_compute; reflexivity. Qed.

(** * Further properties of the hook *)

Section Closures.

Context {T E Dep : Type}.

Local Abbreviation Env := (@Env T Dep).
Local Abbreviation Request := (@Request T Dep).
Local Abbreviation World := (@World T E Dep).
Local Abbreviation Outcome := (@Outcome T E).
Local Abbreviation Cmd := (@Cmd T E Dep).

(** ** usePrevious *)

(** X1.  Over consecutive renders [usePrevious] returns the content of the
    cell at the first render and, at every later render, the state of
    the render just before it, also when that state is the same as the
    current one. *)
Theorem usePrevious_returns_previous_render (A : Type) (ref : option A) (states : list A) :
  usePrevious_renders ref states
  = firstn (length states) (ref :: map Some states).
Proof.
  revert ref. induction states as [|s rest IH]; intros ref.
  - reflexivity.
  - cbn [usePrevious_renders usePrevious length firstn map].
    rewrite IH. reflexivity.
Qed.

(** ** Construction *)

(** X2.  The state a hook starts from: the list is [defaultData], [loading]
    is undefined, the page is [defaultCurrent] (1 when it is omitted or
    0, so never 0 itself), the page size is [defaultPageSize] (20 when
    omitted), total is 0 and [hasMore] is false. *)
Theorem initial_state (dd : option (list T)) (o : option (Options Dep)) :
  let env := render o (initial dd o) in
  dataSource env = dd
  /\ env_loading env = None
  /\ current env <> 0
  /\ (forall c, opt_defaultCurrent o = c -> c <> 0 -> current env = c)
  /\ (opt_defaultCurrent o = 0 -> current env = 1)
  /\ (o = None -> current env = 1 /\ pageSize (env_pageInfo env) = 20)
  /\ (forall x, o = Some x -> defaultCurrent x = None -> current env = 1)
  /\ (forall x, o = Some x -> defaultPageSize x = None ->
        pageSize (env_pageInfo env) = 20)
  /\ (forall x n, o = Some x -> defaultPageSize x = Some n ->
        pageSize (env_pageInfo env) = n)
  /\ total (env_pageInfo env) = 0
  /\ hasMore (env_pageInfo env) = false
  /\ env_prePage env = None
  /\ env_prePageSize env = None.
Proof.
  cbn. unfold current, or_num. cbn.
  repeat split; try reflexivity.
  - destruct (Z.eqb_spec (opt_defaultCurrent o) 0); [discriminate|assumption].
  - intros c Hc Hnz. subst c.
    destruct (Z.eqb_spec (opt_defaultCurrent o) 0); [contradiction|reflexivity].
  - intros H. rewrite H. reflexivity.
  - subst o. reflexivity.
  - subst o. reflexivity.
  - intros x Ho Hc. subst o. cbn. rewrite Hc. reflexivity.
  - intros x Ho Hn. subst o. cbn. rewrite Hn. reflexivity.
  - intros x n Ho Hn. subst o. cbn. rewrite Hn. reflexivity.
Qed.

(** ** What a settled request does *)

(** X7.  Whatever the data source answers, the continuation of [fetchList]
    completes normally, ends by setting [loading] to [false], starts no
    request, and invokes exactly one of the two callbacks, once. *)
Theorem resume_settles (r : Request) (o : Outcome) (w : World) :
  let m := fetchList_resume r o in
  completion m = Normal tt
  /\ (exists l, log m = l ++ [SetLoading false])
  /\ st_loading (hook (apply_cmds w (log m))) = Some false
  /\ (length (onLoad_calls (log m)) + length (onRequestError_calls (log m)) = 1)%nat
  /\ getData_calls (log m) = []
  /\ pending (apply_cmds w (log m)) = pending w.
Proof.
  cbv [fetchList_resume fetchList_body await].
  destruct o as [[rd|]|e]; cbn.
  - destruct (success rd) as [[|]|];
      destruct (req_isAppend r); destruct (env_list (req_env r)); cbn;
      (repeat split; try reflexivity;
       first [ now (exists []) | now (eexists [_]) | now (eexists [_; _])
             | now (eexists [_; _; _]) ]).
  - destruct (req_isAppend r); destruct (env_list (req_env r)); cbn;
      (repeat split; try reflexivity;
       first [ now (exists []) | now (eexists [_]) | now (eexists [_; _])
             | now (eexists [_; _; _]) ]).
  - repeat split; try reflexivity. now (eexists [_]).
Qed.

(** X8.  A data source that resolves with a falsy value is read as [{}]: in
    replace mode (or with an undefined list) the list becomes undefined,
    total 0 is written and [onLoad(undefined)] is called; in append mode
    with a defined list the spread throws, the TypeError goes to
    [onRequestError] and neither the list nor the page info is written. *)
Theorem falsy_outcome (r : Request) :
  (req_isAppend r = false \/ env_list (req_env r) = None ->
   fetchList_resume (E:=E) r (Resolved None) =
   ([SetList None;
     SetPageInfo
       {| hasMore := 0 >? pageSize (env_pageInfo (req_env r))
                          * page (env_pageInfo (req_env r));
          page := page (env_pageInfo (req_env r));
          pageSize := pageSize (env_pageInfo (req_env r));
          total := 0 |};
     OnLoad None;
     SetLoading false], Normal tt))
  /\ (forall l, req_isAppend r = true -> env_list (req_env r) = Some l ->
      fetchList_resume (E:=E) r (Resolved None) =
      ([OnRequestError TypeError; SetLoading false], Normal tt)).
Proof.
  split.
  - intros [H|H]; cbv [fetchList_resume fetchList_body await bind ret];
      rewrite H; [|destruct (req_isAppend r)]; reflexivity.
  - intros l Ha Hl. cbv [fetchList_resume fetchList_body await bind ret].
    rewrite Ha, Hl. reflexivity.
Qed.

(** X9.  A request that resolves with [success] other than [false] writes the
    page and the page size it captured when it started, with the total
    received: a page or page size set while it was pending is lost. *)
Theorem resolved_fetch_overwrites_pageInfo (r : Request) (rd : RequestData (T:=T))
        (w : World) :
  success rd <> Some false ->
  st_pageInfo (hook (apply_cmds w (log (fetchList_resume (E:=E) r (Resolved (Some rd))))))
  = {| hasMore := with_default (rd_total rd) 0
                  >? pageSize (env_pageInfo (req_env r)) * page (env_pageInfo (req_env r));
       page := page (env_pageInfo (req_env r));
       pageSize := pageSize (env_pageInfo (req_env r));
       total := with_default (rd_total rd) 0 |}.
Proof.
  intros Hs. cbv [fetchList_resume fetchList_body await bind ret].
  destruct (success rd) as [[|]|]; try congruence;
    destruct (req_isAppend r); destruct (env_list (req_env r)); reflexivity.
Qed.

(** X13.  Merging across renders composes: merging [a] and then [b] is merging
    [{...a, ...b}]; an empty partial changes nothing, and a merge done
    twice is the merge done once. *)
Theorem merge_laws (p : PageInfo) (a b : PartialPageInfo) :
  merge (merge p a) b = merge p (override a b)
  /\ merge p (mkPartial None None None None) = p
  /\ merge (merge p a) a = merge p a.
Proof.
  destruct p as [h pg ps t], a as [[ah|] [ap|] [as_|] [at_|]],
           b as [[bh|] [bp|] [bs|] [bt|]]; repeat split; reflexivity.
Qed.

(** ** The requests of a render *)

Lemma fetchList_request (env : Env) (isAppend : bool) (r : Request) :
  In (GetData (E:=E) r) (log (fetchList env isAppend)) -> r = request_for env isAppend.
Proof.
  unfold fetchList. destruct (truthy_bool (env_loading env)); cbn.
  - intros [].
  - intros [H|[H|[]]]; [discriminate|]. inversion H. reflexivity.
Qed.

(** X11.  Every request an effect or a returned function of a render starts is
    in replace mode, for the page and the page size that render holds,
    and its continuation runs with the values of that render. *)
Theorem hook_requests (env : Env) (m : Eff (T:=T) (E:=E) (Dep:=Dep) unit) (r : Request) :
  m = pageEffect env \/ m = pageSizeEffect env \/ m = effectsEffect env
  \/ (exists a, m = act env a) ->
  In (GetData r) (log m) ->
  req_isAppend r = false
  /\ req_env r = env
  /\ req_params r = {| param_current := page (env_pageInfo env);
                       param_pageSize := pageSize (env_pageInfo env) |}.
Proof.
  intros Hm Hin.
  enough (r = request_for env false) as -> by (repeat split).
  pose proof (fetchList_request env false r) as Hf.
  destruct (fetchList (E:=E) env false) as [lf cf] eqn:Ef.
  destruct Hm as [-> | [-> | [-> | [a ->]]]].
  - unfold pageEffect in Hin. rewrite Ef in Hin.
    destruct (page_guard env); [cbn in Hin; contradiction|].
    destruct (env_list env) as [l|]; [|cbn in Hin; contradiction].
    cbv [length_of bind ret] in Hin.
    destruct (Z.of_nat (length l) <=? pageSize (env_pageInfo env)); cbn in Hin.
    + apply Hf, Hin.
    + contradiction.
  - unfold pageSizeEffect in Hin. rewrite Ef in Hin.
    destruct (negb (truthy_num (env_prePageSize env))); cbn in Hin.
    + contradiction.
    + destruct Hin as [H|H]; [discriminate|]. apply Hf, H.
  - unfold effectsEffect in Hin. rewrite Ef in Hin. apply Hf, Hin.
  - destruct a; cbn [act] in Hin.
    + unfold reload in Hin. rewrite Ef in Hin. apply Hf, Hin.
    + unfold fetchMore in Hin. destruct (hasMore (env_pageInfo env)); cbn in Hin.
      * destruct Hin as [H|[]]. discriminate.
      * contradiction.
    + cbn in Hin. destruct Hin as [H|[]]. discriminate.
    + cbn in Hin. destruct Hin as [H|[]]. discriminate.
    + cbn in Hin. destruct Hin as [H|[]]. discriminate.
Qed.

End Closures.

(** * Further properties of the hook in its host *)

Section Host.

Context {T E Dep : Type}.
Variable dep_eqb : Dep -> Dep -> bool.
Hypothesis dep_eqb_refl : forall d, dep_eqb d d = true.

Local Abbreviation Env := (@Env T Dep).
Local Abbreviation Request := (@Request T Dep).
Local Abbreviation World := (@World T E Dep).
Local Abbreviation HookState := (@HookState T Dep).
Local Abbreviation Outcome := (@Outcome T E).
Local Abbreviation Cmd := (@Cmd T E Dep).
Local Abbreviation Input := (@Input T E Dep).

Lemma deps_eqb_refl (l : list Dep) : deps_eqb dep_eqb l l = true.
Proof.
  induction l as [|d l IH]; [reflexivity|].
  cbn. rewrite dep_eqb_refl, IH. reflexivity.
Qed.

Lemma apply_cmds_options (l : list Cmd) (w : World) :
  options (apply_cmds w l) = options w.
Proof.
  revert w. induction l as [|c l IH]; intros w; [reflexivity|].
  cbn. unfold apply_cmds in IH. rewrite IH. reflexivity.
Qed.

Lemma apply_cmds_no_setter (l : list Cmd) (w : World) :
  existsb is_setter l = false -> hook (apply_cmds w l) = hook w.
Proof.
  revert w. induction l as [|c l IH]; intros w H; [reflexivity|].
  cbn in H. apply orb_false_iff in H. destruct H as [Hc Hl].
  cbn. unfold apply_cmds in IH. rewrite (IH _ Hl).
  destruct c; cbn in Hc; try discriminate; reflexivity.
Qed.

(** What the effects leave in the cells of the hook. *)
Lemma run_effects_cells (o : option (Options Dep)) (s : HookState) :
  let h := fst (run_effects (E:=E) dep_eqb o s) in
  st_list h = st_list s /\ st_loading h = st_loading s
  /\ st_pageInfo h = st_pageInfo s
  /\ ref_prePage h = snd (usePrevious (ref_prePage s) (page (st_pageInfo s)))
  /\ ref_prePageSize h = snd (usePrevious (ref_prePageSize s) (pageSize (st_pageInfo s)))
  /\ env_prePage (render o s) = fst (usePrevious (ref_prePage s) (page (st_pageInfo s)))
  /\ env_prePageSize (render o s)
     = fst (usePrevious (ref_prePageSize s) (pageSize (st_pageInfo s)))
  /\ dep_page h = Some (page (st_pageInfo s))
  /\ dep_pageSize h = Some (pageSize (st_pageInfo s))
  /\ dep_effects h = Some (opt_effects o).
Proof. cbn. repeat split. Qed.

Lemma settle_rests (fuel : nat) (w w' : World) :
  settle dep_eqb fuel w = Done w' -> at_rest w'.
Proof.
  revert w. induction fuel as [|fuel IH]; intros w H; [discriminate|].
  cbn [settle] in H.
  destruct (run_effects dep_eqb (options w) (hook w)) as [h eff] eqn:Er.
  pose proof (run_effects_cells (options w) (hook w)) as Hc.
  rewrite Er in Hc. cbn [fst] in Hc.
  destruct (completion eff); [|discriminate].
  destruct (existsb is_setter (log eff)) eqn:Es.
  - apply (IH _ H).
  - inversion H; subst w'. clear H.
    unfold at_rest.
    rewrite (apply_cmds_no_setter _ _ Es), apply_cmds_options. cbn.
    destruct Hc as (_ & _ & Hp & Hr1 & Hr2 & _ & _ & Hd1 & Hd2 & Hd3).
    cbn in Hr1, Hr2. rewrite Hp, Hr1, Hr2, Hd1, Hd2, Hd3. repeat split.
Qed.

Lemma run_effects_at_rest (w : World) :
  at_rest w ->
  run_effects (E:=E) dep_eqb (options w) (hook w) = (hook w, ret tt).
Proof.
  destruct w as [[l ld p r1 r2 d1 d2 d3] o pend tr].
  unfold at_rest. cbn. intros (H1 & H2 & H3 & H4 & H5). subst.
  unfold run_effects. cbn.
  rewrite !Z.eqb_refl, deps_eqb_refl. reflexivity.
Qed.

Lemma settle_at_rest (n : nat) (w : World) :
  at_rest w -> settle dep_eqb (S n) w = Done w.
Proof.
  intros H. cbn [settle]. rewrite (run_effects_at_rest H). cbn.
  destruct w; reflexivity.
Qed.

(** ** The render loop ends *)

Lemma settle_two_renders (n : nat) (w : World) :
  settle dep_eqb (S (S n)) w <> OutOfFuel.
Proof.
  destruct w as [[l ld p r1 r2 d1 d2 d3] o pend tr].
  destruct ld as [[|]|]; destruct l as [l|];
    cbn [settle hook options];
    unfold run_effects, pageEffect, pageSizeEffect, effectsEffect, fetchList, length_of;
    cbn;
    repeat (first [ rewrite Z.eqb_refl
                  | rewrite deps_eqb_refl
                  | match goal with
                    | |- context [if ?b then _ else _] => destruct b eqn:?
                    end ]; cbn);
    try discriminate.
Qed.

Lemma dispatch_each_ends (n : nat) (l : list Cmd) (w : World) :
  dispatch_each dep_eqb (S (S n)) l w <> OutOfFuel.
Proof.
  revert w. induction l as [|c l IH]; intros w; [discriminate|].
  cbn [dispatch_each]. destruct (is_setter c).
  - pose proof (settle_two_renders n (apply_cmd w c)) as Hs.
    destruct (settle dep_eqb (S (S n)) (apply_cmd w c)); [apply IH|discriminate|assumption].
  - apply IH.
Qed.

Lemma dispatch_ends (batched : bool) (n : nat) (l : list Cmd) (w : World) :
  dispatch dep_eqb batched (S (S n)) l w <> OutOfFuel.
Proof.
  unfold dispatch. destruct batched.
  - destruct (existsb is_setter l); [apply settle_two_renders|discriminate].
  - apply dispatch_each_ends.
Qed.

Lemma step_ends (batched : bool) (n : nat) (w : World) (i : Input) :
  step dep_eqb batched (S (S n)) w i <> OutOfFuel.
Proof.
  destruct i as [l|k o|o]; cbn [step].
  - apply dispatch_ends.
  - destruct (nth_error (pending w) k); [apply dispatch_ends|discriminate].
  - apply settle_two_renders.
Qed.

Lemma steps_ends (batched : bool) (n : nat) (l : list Input) (w : World) :
  steps dep_eqb batched (S (S n)) w l <> OutOfFuel.
Proof.
  revert w. induction l as [|i l IH]; intros w; [discriminate|].
  cbn [steps]. pose proof (step_ends batched n w i) as Hs.
  destruct (step dep_eqb batched (S (S n)) w i); [apply IH|discriminate|assumption].
Qed.

(** X4.  The render loop always ends: from any state of the hook the effects
    of a render cause at most one more render, after which nothing is
    set.  So a mount followed by any calls, settled requests and parent
    renders needs no more than two renders per state change, and ends
    either at rest or with the TypeError of an effect. *)
Theorem run_ends (batched : bool) (n : nat) (defaultData : option (list T))
        (o : option (Options Dep)) (l : list Input) (w : World) :
  settle dep_eqb (S (S n)) w <> OutOfFuel
  /\ run dep_eqb batched (S (S n)) defaultData o l <> OutOfFuel.
Proof.
  split; [apply settle_two_renders|].
  unfold run, mount.
  pose proof (settle_two_renders n
                {| hook := initial defaultData o; options := o;
                   pending := []; trace := [] |}) as Hs.
  destruct (settle dep_eqb (S (S n)) _); [apply steps_ends|discriminate|assumption].
Qed.

(** ** At rest between events *)

Lemma apply_cmd_keeps_cells (w : World) (c : Cmd) :
  is_setter c = false -> hook (apply_cmd w c) = hook w /\ options (apply_cmd w c) = options w.
Proof. destruct c; cbn; intros H; try discriminate; split; reflexivity. Qed.

Lemma dispatch_rests (batched : bool) (fuel : nat) (l : list Cmd) (w w' : World) :
  at_rest w -> dispatch dep_eqb batched fuel l w = Done w' -> at_rest w'.
Proof.
  unfold dispatch. destruct batched.
  - destruct (existsb is_setter l) eqn:Es.
    + intros _. apply settle_rests.
    + intros Hr H. inversion H; subst w'. unfold at_rest in *.
      rewrite (apply_cmds_no_setter _ _ Es), apply_cmds_options. exact Hr.
  - revert w. induction l as [|c l IH]; intros w Hr H.
    + inversion H; subst; exact Hr.
    + cbn [dispatch_each] in H. destruct (is_setter c) eqn:Ec.
      * destruct (settle dep_eqb fuel (apply_cmd w c)) as [w1| |] eqn:Hs;
          try discriminate.
        apply (IH w1); [apply (settle_rests _ _ Hs)|exact H].
      * apply (IH (apply_cmd w c)); [|exact H].
        destruct (apply_cmd_keeps_cells w c Ec) as [Hh Ho].
        unfold at_rest in *. rewrite Hh, Ho. exact Hr.
Qed.

Lemma step_rests (batched : bool) (fuel : nat) (w w' : World) (i : Input) :
  at_rest w -> step dep_eqb batched fuel w i = Done w' -> at_rest w'.
Proof.
  intros Hr. destruct i as [l|k o|o]; cbn [step].
  - apply dispatch_rests, Hr.
  - destruct (nth_error (pending w) k).
    + apply dispatch_rests. exact Hr.
    + intros H. inversion H; subst. exact Hr.
  - apply settle_rests.
Qed.

Lemma steps_rests (batched : bool) (fuel : nat) (l : list Input) (w w' : World) :
  at_rest w -> steps dep_eqb batched fuel w l = Done w' -> at_rest w'.
Proof.
  revert w. induction l as [|i l IH]; intros w Hr H; cbn [steps] in H.
  - inversion H; subst. exact Hr.
  - destruct (step dep_eqb batched fuel w i) as [w1| |] eqn:Hs; try discriminate.
    apply (IH w1); [apply (step_rests _ _ _ Hr Hs)|exact H].
Qed.

Lemma run_rests (batched : bool) (fuel : nat) (defaultData : option (list T))
      (o : option (Options Dep)) (l : list Input) (w : World) :
  run dep_eqb batched fuel defaultData o l = Done w -> at_rest w.
Proof.
  unfold run, mount.
  destruct (settle dep_eqb fuel _) as [w1| |] eqn:Hs; try discriminate.
  apply steps_rests. apply (settle_rests _ _ Hs).
Qed.

(** ** Mounting *)

(** X3.  Mounting a hook starts exactly one request, whatever the options
    and the default data: the page effect and the pageSize effect see no
    previous value and do nothing, the effect on [effects] calls
    [fetchList] in replace mode for the initial page and page size, and
    the render after that sets nothing more. *)
Theorem mount_fetches_once (n : nat) (defaultData : option (list T))
        (o : option (Options Dep)) :
  exists w : World,
    mount dep_eqb (S (S n)) defaultData o = Done w
    /\ trace w = [SetLoading true;
                  GetData (request_for (render o (initial defaultData o)) false)]
    /\ pending w = [request_for (render o (initial defaultData o)) false]
    /\ getData_calls (trace w)
       = [ {| param_current := or_num (opt_defaultCurrent o) 1;
              param_pageSize := opt_defaultPageSize o |} ]
    /\ st_loading (hook w) = Some true
    /\ st_list (hook w) = defaultData
    /\ st_pageInfo (hook w) = defaultPageInfo o.
Proof.
  eexists. split.
  - unfold mount. cbn [settle hook options]. unfold run_effects. cbn.
    rewrite !Z.eqb_refl, deps_eqb_refl. cbn. reflexivity.
  - cbn. repeat split; reflexivity.
Qed.

(** ** The effect on [effects] *)


(** ** A change of page *)

Lemma page_change_settles (batched : bool) (n : nat) (w : World) (l : list T) (q : Z) :
  at_rest w ->
  truthy_bool (st_loading (hook w)) = false ->
  st_list (hook w) = Some l ->
  page (st_pageInfo (hook w)) <> 0 ->
  q <> page (st_pageInfo (hook w)) ->
  let p' := set_page (st_pageInfo (hook w)) q in
  let env' :=
    {| env_options := options w;
       env_list := Some l;
       env_loading := st_loading (hook w);
       env_pageInfo := p';
       env_prePage := Some (page (st_pageInfo (hook w)));
       env_prePageSize := Some (pageSize (st_pageInfo (hook w))) |} in
  let fetched := Z.of_nat (length l) <=? pageSize (st_pageInfo (hook w)) in
  exists w' : World,
    dispatch dep_eqb batched (S (S n)) [SetPageInfo p'] w = Done w'
    /\ trace w' = trace w ++ SetPageInfo p'
                  :: (if fetched
                      then [SetLoading true; GetData (request_for env' false)]
                      else [])
    /\ pending w' = pending w ++ (if fetched then [request_for env' false] else [])
    /\ st_pageInfo (hook w') = p'
    /\ st_list (hook w') = Some l
    /\ st_loading (hook w') = (if fetched then Some true else st_loading (hook w)).
Proof.
  destruct w as [[l0 ld p r1 r2 d1 d2 d3] o pend tr].
  unfold at_rest. cbn. intros (H1 & H2 & H3 & H4 & H5) Hl Hlist Hnz Hq. subst.
  assert (Eq1 : (page p =? q) = false) by (apply Z.eqb_neq; congruence).
  assert (Eq2 : (page p =? 0) = false) by (apply Z.eqb_neq; assumption).
  assert (Hd : dispatch dep_eqb batched (S (S n)) [SetPageInfo (set_page p q)]
                 {| hook := mkHookState (Some l) ld p (Some (page p)) (Some (pageSize p))
                                        (Some (page p)) (Some (pageSize p))
                                        (Some (opt_effects o));
                    options := o; pending := pend; trace := tr |}
               = match settle dep_eqb (S (S n))
                         (apply_cmd
                            {| hook := mkHookState (Some l) ld p (Some (page p))
                                                   (Some (pageSize p)) (Some (page p))
                                                   (Some (pageSize p))
                                                   (Some (opt_effects o));
                               options := o; pending := pend; trace := tr |}
                            (SetPageInfo (set_page p q))) with
                 | Done w' => Done w'
                 | r => r
                 end).
  { destruct batched; cbn [dispatch dispatch_each existsb is_setter orb apply_cmds fold_left].
    - destruct (settle _ _ _); reflexivity.
    - reflexivity. }
  rewrite Hd. clear Hd.
  cbn [settle apply_cmd hook options]. unfold run_effects. cbn.
  rewrite Eq1, !Z.eqb_refl, deps_eqb_refl. cbn.
  unfold pageEffect, page_guard. cbn. rewrite Eq1, Eq2. cbn.
  destruct (Z.of_nat (length l) <=? pageSize p).
  - unfold fetchList. cbn. rewrite Hl. cbn.
    rewrite !Z.eqb_refl, deps_eqb_refl. cbn.
    eexists. split; [reflexivity|]. cbn. repeat split; rewrite <- ?app_assoc; reflexivity.
  - cbn. eexists. split; [reflexivity|]. cbn.
    repeat split; rewrite ?app_nil_r; reflexivity.
Qed.

(** X12.  [resetPageIndex()] on an idle hook at rest.  At a page other than 1
    the page becomes 1 and, when the list is no longer than a page, one
    request is started, in replace mode, for page 1; with a longer list
    nothing is asked.  At page 1 the page info is written as it is and
    nothing else happens. *)
Theorem resetPageIndex_run (batched : bool) (n : nat) (w : World) (l : list T) :
  at_rest w ->
  truthy_bool (st_loading (hook w)) = false ->
  st_list (hook w) = Some l ->
  page (st_pageInfo (hook w)) <> 0 ->
  let p := st_pageInfo (hook w) in
  let fetched := Z.of_nat (length l) <=? pageSize p in
  exists w' : World,
    step dep_eqb batched (S (S n)) w (Call [AResetPageIndex]) = Done w'
    /\ current (render (options w') (hook w')) = 1
    /\ pageSize (st_pageInfo (hook w')) = pageSize p
    /\ dataSource (render (options w') (hook w')) = Some l
    /\ getData_calls (trace w')
       = getData_calls (trace w)
         ++ (if (page p =? 1) then []
             else if fetched
                  then [ {| param_current := 1; param_pageSize := pageSize p |} ]
                  else [])
    /\ (forall r, In r (pending w') -> In r (pending w) \/ req_isAppend r = false).
Proof.
  intros Hr Hl Hlist Hnz p fetched. subst p fetched.
  destruct (Z.eqb_spec (page (st_pageInfo (hook w))) 1) as [H1|H1].
  - destruct w as [[l0 ld [h pg ps t] r1 r2 d1 d2 d3] o pend tr].
    unfold at_rest in Hr. cbn in *. destruct Hr as (? & ? & ? & ? & ?). subst.
    destruct batched; cbn; unfold run_effects; cbn;
      rewrite !Z.eqb_refl, deps_eqb_refl; cbn;
      (eexists; split; [reflexivity|]; cbn; unfold getData_calls;
       rewrite flat_map_app; cbn; repeat split; try reflexivity;
       intros r Hin; left; exact Hin).
  - destruct (page_change_settles batched n (q:=1) Hr Hl Hlist Hnz (not_eq_sym H1))
      as (w' & Hd & Ht & Hp & Hpi & Hli & Hlo).
    exists w'. split; [exact Hd|].
    unfold current, dataSource. cbn. rewrite Hpi, Hli, Ht, Hp.
    repeat split.
    + unfold getData_calls. rewrite flat_map_app. cbn.
      destruct (Z.of_nat (length l) <=? pageSize (st_pageInfo (hook w))); reflexivity.
    + intros r Hin. apply in_app_or in Hin. destruct Hin as [Hin|Hin]; [left; exact Hin|].
      right. destruct (Z.of_nat (length l) <=? pageSize (st_pageInfo (hook w))); cbn in Hin.
      * destruct Hin as [<-|[]]. reflexivity.
      * contradiction.
Qed.

(** ** Commands that leave page and page size alone *)

Lemma apply_cmd_quiet (w : World) (c : Cmd) :
  at_rest w ->
  (forall p, c = SetPageInfo p ->
             page p = page (st_pageInfo (hook w))
             /\ pageSize p = pageSize (st_pageInfo (hook w))) ->
  at_rest (apply_cmd w c)
  /\ page (st_pageInfo (hook (apply_cmd w c))) = page (st_pageInfo (hook w))
  /\ pageSize (st_pageInfo (hook (apply_cmd w c))) = pageSize (st_pageInfo (hook w)).
Proof.
  intros Hr Hc. unfold at_rest in *.
  destruct c; cbn; try (repeat split; tauto).
  destruct (Hc p eq_refl) as [H1 H2]. rewrite H1, H2. repeat split; tauto.
Qed.

Lemma dispatch_quiet (batched : bool) (n : nat) (l : list Cmd) (w : World) :
  at_rest w ->
  (forall p, In (SetPageInfo p) l ->
             page p = page (st_pageInfo (hook w))
             /\ pageSize p = pageSize (st_pageInfo (hook w))) ->
  dispatch dep_eqb batched (S n) l w = Done (apply_cmds w l)
  /\ at_rest (apply_cmds w l).
Proof.
  intros Hr Hl.
  assert (H : at_rest (apply_cmds w l)
              /\ dispatch_each dep_eqb (S n) l w = Done (apply_cmds w l)).
  { revert w Hr Hl. induction l as [|c l IH]; intros w Hr Hl.
    - split; [exact Hr|reflexivity].
    - destruct (apply_cmd_quiet (c:=c) Hr) as (Hr1 & Hp1 & Hs1).
      { intros p ->. apply Hl. left. reflexivity. }
      destruct (IH (apply_cmd w c) Hr1) as [Hr2 Hd2].
      { intros p Hin. rewrite Hp1, Hs1. apply Hl. right. exact Hin. }
      split; [exact Hr2|].
      cbn [dispatch_each]. rewrite (settle_at_rest n Hr1).
      destruct (is_setter c); exact Hd2. }
  destruct H as [Hr' Hd]. split; [|exact Hr'].
  unfold dispatch. destruct batched; [|exact Hd].
  destruct (existsb is_setter l); [apply settle_at_rest, Hr'|reflexivity].
Qed.

(** ** After a failure *)

(** X10.  A request that is rejected, or resolves with [success === false],
    leaves a hook at rest as it was but for [loading], and the hook can
    be asked again: a [reload()] then starts one request for the page
    and page size the hook holds. *)
Theorem retry_after_failure (batched : bool) (n k : nat) (w : World) (r : Request)
        (o : Outcome) :
  at_rest w ->
  nth_error (pending w) k = Some r ->
  (exists e, o = Rejected e)
  \/ (exists rd, o = Resolved (Some rd) /\ success rd = Some false) ->
  exists w1 w2 : World,
    step dep_eqb batched (S n) w (Settle k o) = Done w1
    /\ st_list (hook w1) = st_list (hook w)
    /\ st_pageInfo (hook w1) = st_pageInfo (hook w)
    /\ st_loading (hook w1) = Some false
    /\ getData_calls (trace w1) = getData_calls (trace w)
    /\ step dep_eqb batched (S (S n)) w1 (Call [AReload]) = Done w2
    /\ getData_calls (trace w2)
       = getData_calls (trace w)
         ++ [ {| param_current := page (st_pageInfo (hook w));
                 param_pageSize := pageSize (st_pageInfo (hook w)) |} ]
    /\ st_loading (hook w2) = Some true.
Proof.
  intros Hr Hk Ho. cbn [step]. rewrite Hk.
  set (w0 := {| hook := hook w; options := options w;
                pending := remove_nth k (pending w); trace := trace w |}).
  assert (Hr0 : at_rest w0) by exact Hr.
  assert (Hlog : exists c, log (fetchList_resume r o) = [c; SetLoading false]
                           /\ is_setter c = false
                           /\ getData_calls [c] = []).
  { destruct Ho as [[e ->]|[rd [-> Hs]]].
    - eexists. rewrite resume_rejected. repeat split.
    - eexists. rewrite (resume_success_false r rd Hs). repeat split. }
  destruct Hlog as (c & Hlog & Hc & Hg). rewrite Hlog.
  destruct (dispatch_quiet batched n [c; SetLoading false] Hr0) as [Hd Hr1].
  { intros p [H|[H|[]]]; [subst c; discriminate|discriminate]. }
  set (w1 := apply_cmds w0 [c; SetLoading false]) in *.
  assert (Hh1 : hook w1 = {| st_list := st_list (hook w);
                             st_loading := Some false;
                             st_pageInfo := st_pageInfo (hook w);
                             ref_prePage := ref_prePage (hook w);
                             ref_prePageSize := ref_prePageSize (hook w);
                             dep_page := dep_page (hook w);
                             dep_pageSize := dep_pageSize (hook w);
                             dep_effects := dep_effects (hook w) |}).
  { subst w1 w0. destruct c; cbn in Hc; try discriminate; reflexivity. }
  assert (Ht1 : getData_calls (trace w1) = getData_calls (trace w)).
  { subst w1 w0. cbn. unfold getData_calls in *. rewrite !flat_map_app.
    rewrite Hg. cbn. rewrite !app_nil_r. reflexivity. }
  exists w1.
  destruct w1 as [h1 o1 pend1 tr1]. cbn in Hh1, Ht1. subst h1.
  unfold at_rest in Hr1. cbn in Hr1. destruct Hr1 as (R1 & R2 & R3 & R4 & R5).
  eexists. split; [exact Hd|]. cbn [hook st_list st_pageInfo st_loading trace].
  repeat split; try assumption.
  - unfold step, handler, act, reload, fetchList, render. cbn.
    destruct batched; cbn; unfold run_effects; cbn;
      rewrite R3, R4, R5; cbn; rewrite !Z.eqb_refl, deps_eqb_refl; cbn;
      reflexivity.
  - destruct batched; cbn; unfold getData_calls in *;
      rewrite ?flat_map_app; cbn; rewrite ?flat_map_app; cbn;
      rewrite Ht1, ?app_nil_r; reflexivity.
  - destruct batched; reflexivity.
Qed.

(** X5.  A render that changes nothing asks nothing.  After a mount and any
    calls, settled requests and parent renders, rendering the hook again
    with the options it has runs no effect of the hook: no request, no
    state change, the same world, however often. *)
Theorem rerender_is_idle (batched : bool) (fuel n : nat)
        (defaultData : option (list T)) (o : option (Options Dep))
        (l : list Input) (w : World) :
  run dep_eqb batched fuel defaultData o l = Done w ->
  step dep_eqb batched (S n) w (Rerender (options w)) = Done w.
Proof.
  intros H. apply run_rests in H. cbn [step].
  replace {| hook := hook w; options := options w;
             pending := pending w; trace := trace w |} with w
    by (destruct w; reflexivity).
  apply settle_at_rest, H.
Qed.

End Host.

(** * Instances of the further properties *)

Import Worlds.

Lemma at_rest_loaded : at_rest loaded.
Proof. repeat split. Qed.

Lemma at_rest_asking : at_rest asking.
Proof. repeat split. Qed.

Lemma falsy_outcome_witness :
  fetchList_resume (E:=nat) asked (Resolved None)
  = ([SetList None; SetPageInfo (mkPageInfo false 2 2 0); OnLoad None; SetLoading false],
     Normal tt).
Proof.
  exact (proj1 (falsy_outcome (E:=nat) asked) (or_introl eq_refl)).
Defined.

Lemma resolved_fetch_overwrites_pageInfo_witness :
  success answer <> Some false
  /\ st_pageInfo
       (hook (apply_cmds
                (apply_cmd asking (SetPageInfo (mkPageInfo true 5 50 10)))
                (log (fetchList_resume (E:=nat) asked (Resolved (Some answer))))))
     = mkPageInfo true 2 2 10.
Proof.
  split; [discriminate|].
  refine (resolved_fetch_overwrites_pageInfo (E:=nat) asked answer
            (apply_cmd asking (SetPageInfo (mkPageInfo true 5 50 10))) _).
  discriminate.
Defined.

Lemma hook_requests_witness :
  req_isAppend asked = false
  /\ req_env asked = render (options loaded) (hook loaded)
  /\ req_params asked = {| param_current := 2; param_pageSize := 2 |}.
Proof.
  refine (hook_requests (E:=nat) (render (options loaded) (hook loaded))
            (m:=act (render (options loaded) (hook loaded)) AReload) asked _ _).
  - right. right. right. exists AReload. reflexivity.
  - cbn. right. left. reflexivity.
Defined.

Lemma run_ends_witness :
  run (E:=nat) Z.eqb false 2 None (opts_pageSize 2)
      [Settle 0 (ok [1; 2] 4); Call [AFetchMore]; Settle 0 (ok [3; 4] 4)]
  <> OutOfFuel.
Proof.
  exact (proj2 (@run_ends Z nat Z Z.eqb Z.eqb_refl false 0 None (opts_pageSize 2)
                         [Settle 0 (ok [1; 2] 4); Call [AFetchMore];
                          Settle 0 (ok [3; 4] 4)]
                         loaded)).
Defined.

Lemma mount_fetches_once_witness :
  exists w,
    mount (T:=Z) (E:=nat) Z.eqb 2 None (opts_page_pageSize 3 20) = Done w
    /\ getData_calls (trace w) = [ {| param_current := 3; param_pageSize := 20 |} ].
Proof.
  destruct (@mount_fetches_once Z nat Z Z.eqb Z.eqb_refl 0 None
                               (opts_page_pageSize 3 20))
    as (w & Hm & _ & _ & Hg & _).
  exists w. split; [exact Hm|exact Hg].
Defined.

Lemma rerender_is_idle_witness :
  exists w,
    run (E:=nat) Z.eqb true 2 None (opts_pageSize 2) [Settle 0 (ok [1; 2] 4)] = Done w
    /\ step Z.eqb true 1 w (Rerender (options w)) = Done w.
Proof.
  eexists. split.
  - vm_compute. reflexivity.
  - apply (@rerender_is_idle Z nat Z Z.eqb Z.eqb_refl true 2 0 None (opts_pageSize 2)
                            [Settle 0 (ok [1; 2] 4)]).
    vm_compute. reflexivity.
Defined.


Lemma resetPageIndex_run_witness :
  at_rest loaded
  /\ exists w',
       step Z.eqb false 2 loaded (Call [AResetPageIndex]) = Done w'
       /\ getData_calls (trace w') = [ {| param_current := 1; param_pageSize := 2 |} ].
Proof.
  split; [exact at_rest_loaded|].
  assert (Hnz : page (st_pageInfo (hook loaded)) <> 0) by discriminate.
  destruct (@resetPageIndex_run Z nat Z Z.eqb Z.eqb_refl false 0 loaded [3; 4]
                               at_rest_loaded eq_refl eq_refl Hnz)
    as (w' & Hs & _ & _ & _ & Hg & _).
  exists w'. split; [exact Hs|exact Hg].
Defined.

Lemma retry_after_failure_witness :
  at_rest asking
  /\ exists w1 w2,
       step Z.eqb true 1 asking (Settle 0 (Rejected 500%nat)) = Done w1
       /\ step Z.eqb true 2 w1 (Call [AReload]) = Done w2
       /\ getData_calls (trace w2)
          = getData_calls (trace asking) ++ [ {| param_current := 2; param_pageSize := 2 |} ].
Proof.
  split; [exact at_rest_asking|].
  destruct (@retry_after_failure Z nat Z Z.eqb Z.eqb_refl true 0 0 asking asked
                                (Rejected 500%nat) at_rest_asking eq_refl
                                (or_introl (ex_intro _ 500%nat eq_refl)))
    as (w1 & w2 & H1 & _ & _ & _ & _ & H2 & H3 & _).
  exists w1, w2. repeat split; assumption.
Defined.
